(** * FreshdeskApi: a shallow embedding of [src/scripts/freshdesk-api.js]

    The JavaScript class [FreshdeskApi] wraps the Freshdesk Solutions REST
    API.  This development models

    - the values the class manipulates (strings, error objects, responses),
    - the platform functions it calls ([Buffer.from(..).toString('base64')],
      [Headers.get], [String.prototype.startsWith], template literals),
    - its effects: requests handed to [fetch], lines written to
      [process.stdout], and the mutable field [this.rateLimited],

    and then proves the properties the specification states about it.

    A promise is identified with the way it settles, and a method call is
    run until the promise it returns has settled: the callbacks of several
    calls in flight at once are not interleaved. *)

From Stdlib Require Import ZArith NArith List Bool Lia.
From Stdlib Require Import Ascii String DecimalString.
Import ListNotations.

Open Scope string_scope.
Open Scope Z_scope.

(** ** JavaScript values *)

(** The primitive values that reach the fields this class reads or writes.
    Numbers are restricted to integers: the only numbers involved are HTTP
    status codes and Freshdesk ids. *)
Inductive JsVal : Type :=
| JUndefined
| JNull
| JNumber (n : Z)
| JString (s : string).

(** [ToString], as a template literal applies it to a substitution. *)
Definition ToString (v : JsVal) : string :=
  match v with
  | JUndefined => "undefined"
  | JNull => "null"
  | JNumber n => NilZero.string_of_int (Z.to_int n)
  | JString s => s
  end.

(** [v === n] for a number literal [n]. *)
Definition strict_eq_num (v : JsVal) (n : Z) : bool :=
  match v with
  | JNumber m => m =? n
  | _ => false
  end.

(** An [Error] object with the two extra properties of
    [ScratchFreshdeskError].  A property never assigned reads [undefined]. *)
Record JsError : Type := mkError {
  message : string;
  code : JsVal;
  retryAfter : JsVal
}.

(** [new Error(msg)] *)
Definition new_Error (msg : string) : JsError :=
  {| message := msg; code := JUndefined; retryAfter := JUndefined |}.

(** The completion of a synchronous call: a value, or a thrown error. *)
Inductive Completion (A : Type) : Type :=
| Normal (a : A)
| Throw (e : JsError).
Arguments Normal {A} a.
Arguments Throw {A} e.

(** A promise, identified with the way it settles. *)
Inductive Settled (A : Type) : Type :=
| Fulfilled (a : A)
| Rejected (e : JsError).
Arguments Fulfilled {A} a.
Arguments Rejected {A} e.

(** [p.then(f)] for a callback [f] that returns or throws. *)
Definition then_call {A B} (p : Settled A) (f : A -> Completion B) : Settled B :=
  match p with
  | Fulfilled a =>
      match f a with
      | Normal b => Fulfilled b
      | Throw e => Rejected e
      end
  | Rejected e => Rejected e
  end.

(** [p.then(f)] for a callback [f] that returns a promise. *)
Definition then_promise {A B} (p : Settled A) (f : A -> Settled B) : Settled B :=
  match p with
  | Fulfilled a => f a
  | Rejected e => Rejected e
  end.

(** ** ASCII case mapping, for header names and method names *)

Definition is_upper (c : ascii) : bool :=
  ((65 <=? N_of_ascii c) && (N_of_ascii c <=? 90))%N.

Definition is_lower (c : ascii) : bool :=
  ((97 <=? N_of_ascii c) && (N_of_ascii c <=? 122))%N.

Definition lower_ascii (c : ascii) : ascii :=
  if is_upper c then ascii_of_N (N_of_ascii c + 32) else c.

Definition upper_ascii (c : ascii) : ascii :=
  if is_lower c then ascii_of_N (N_of_ascii c - 32) else c.

Fixpoint map_string (f : ascii -> ascii) (s : string) : string :=
  match s with
  | EmptyString => EmptyString
  | String c r => String (f c) (map_string f r)
  end.

Definition toLowerCase : string -> string := map_string lower_ascii.
Definition toUpperCase : string -> string := map_string upper_ascii.

(** [s.startsWith(p)] *)
Definition startsWith (s p : string) : bool := String.prefix p s.

(** ** Base64 (RFC 4648, with padding)

    [Buffer.from(s).toString('base64')].  A [string] here is the sequence of
    bytes of the UTF-8 encoding of the JavaScript string, so [Buffer.from]
    is the identity on it. *)

Module Base64.

Open Scope N_scope.

(** The character of a six-bit value. *)
Definition digit (n : N) : ascii :=
  if n <? 26 then ascii_of_N (n + 65)
  else if n <? 52 then ascii_of_N (n + 71)
  else if n <? 62 then ascii_of_N (n - 4)
  else if n =? 62 then "+"%char
  else "/"%char.

(** The six-bit value of a character of the alphabet. *)
Definition value (c : ascii) : option N :=
  let x := N_of_ascii c in
  if is_upper c then Some (x - 65)
  else if is_lower c then Some (x - 71)
  else if (48 <=? x) && (x <=? 57) then Some (x + 4)
  else if x =? 43 then Some 62
  else if x =? 47 then Some 63
  else None.

Definition pad : ascii := "="%char.

Definition enc1 (a : N) (k : string) : string :=
  String (digit (a / 4))
 (String (digit ((a mod 4) * 16))
 (String pad (String pad k))).

Definition enc2 (a b : N) (k : string) : string :=
  String (digit (a / 4))
 (String (digit ((a mod 4) * 16 + b / 16))
 (String (digit ((b mod 16) * 4))
 (String pad k))).

Definition enc3 (a b c : N) (k : string) : string :=
  String (digit (a / 4))
 (String (digit ((a mod 4) * 16 + b / 16))
 (String (digit ((b mod 16) * 4 + c / 64))
 (String (digit (c mod 64)) k))).

Fixpoint encode (s : string) : string :=
  match s with
  | EmptyString => EmptyString
  | String a EmptyString => enc1 (N_of_ascii a) EmptyString
  | String a (String b EmptyString) =>
      enc2 (N_of_ascii a) (N_of_ascii b) EmptyString
  | String a (String b (String c rest)) =>
      enc3 (N_of_ascii a) (N_of_ascii b) (N_of_ascii c) (encode rest)
  end.

Definition is_pad (c : ascii) : bool := Ascii.eqb c pad.

Definition is_empty (s : string) : bool :=
  match s with EmptyString => true | _ => false end.

(** The decoder, used only to state that [encode] loses nothing. *)
Fixpoint decode (s : string) : option string :=
  match s with
  | EmptyString => Some EmptyString
  | String c1 (String c2 (String c3 (String c4 rest))) =>
      match value c1, value c2 with
      | Some v1, Some v2 =>
          let a := ascii_of_N (v1 * 4 + v2 / 16) in
          if is_pad c3 then
            if is_pad c4 && is_empty rest && (v2 mod 16 =? 0)
            then Some (String a EmptyString) else None
          else
            match value c3 with
            | Some v3 =>
                let b := ascii_of_N ((v2 mod 16) * 16 + v3 / 4) in
                if is_pad c4 then
                  if is_empty rest && (v3 mod 4 =? 0)
                  then Some (String a (String b EmptyString)) else None
                else
                  match value c4, decode rest with
                  | Some v4, Some r =>
                      let c := ascii_of_N ((v3 mod 4) * 64 + v4) in
                      Some (String a (String b (String c r)))
                  | _, _ => None
                  end
            | None => None
            end
      | _, _ => None
      end
  | _ => None
  end.

End Base64.

(** ** HTTP data, as [node-fetch] presents it *)

(** A header list, one entry per header name (the values of a repeated
    header already joined).  [Headers.get] is case-insensitive in the name
    and yields [null] for a header that is absent. *)
Definition Headers : Type := list (string * string).

Fixpoint Headers_get (name : string) (h : Headers) : option string :=
  match h with
  | [] => None
  | (k, v) :: r =>
      if String.eqb (toLowerCase k) (toLowerCase name) then Some v
      else Headers_get name r
  end.

(** A value that is a string or [null], as JavaScript sees it. *)
Definition of_nullable (o : option string) : JsVal :=
  match o with
  | Some s => JString s
  | None => JNull
  end.

Record Response : Type := mkResponse {
  status : Z;
  statusText : string;
  headers : Headers;
  body : string
}.

(** [res.ok]: the status is in the range 200-299. *)
Definition ok (res : Response) : bool :=
  (200 <=? status res) && (status res <=? 299).

(** The arguments of one call of [fetch]: the URL and the [init] object.
    A property the caller leaves out is [None]. *)
Record Request : Type := mkRequest {
  url : string;
  init_method : option string;
  init_body : option string;
  init_headers : Headers
}.

(** The HTTP method [fetch] puts on the wire: [GET] unless [init.method] is
    given, and upper-cased. *)
Definition wire_method (r : Request) : string :=
  match init_method r with
  | None => "GET"
  | Some m => toUpperCase m
  end.

(** ** The class *)

(** The fields of an instance. *)
Record FreshdeskApi : Type := mkApi {
  baseUrl : string;
  _auth : string;
  defaultHeaders : Headers;
  rateLimited : bool
}.

(** What an upsert hands back: the number [-1], or a promise. *)
Inductive Upsert (A : Type) : Type :=
| MinusOne
| Promise (p : Settled A).
Arguments MinusOne {A}.
Arguments Promise {A} p.

(** Everything outside the instance that the class can affect: the calls of
    [fetch] made so far, oldest first, and the chunks written to
    [process.stdout], oldest first. *)
Record World : Type := mkWorld {
  sent : list Request;
  stdout : list string
}.

(** The state a method runs in: its receiver and the world. *)
Record Machine : Type := mkMachine {
  this : FreshdeskApi;
  world : World
}.

(** Methods are state transformers over [Machine]. *)
Definition M (A : Type) : Type := Machine -> A * Machine.

Definition ret {A} (a : A) : M A := fun m => (a, m).

Definition bind {A B} (c : M A) (k : A -> M B) : M B :=
  fun m => let (a, m') := c m in k a m'.

Declare Scope js_scope.
Delimit Scope js_scope with js.
Notation "x <- c ;; k" := (bind c (fun x => k))
  (at level 61, c at next level, right associativity) : js_scope.
Notation "c ;; k" := (bind c (fun _ => k))
  (at level 61, right associativity) : js_scope.
Open Scope js_scope.

(** Reading a field of [this]. *)
Definition get_this {A} (f : FreshdeskApi -> A) : M A :=
  fun m => (f (this m), m).

(** [this.rateLimited = b] *)
Definition set_rateLimited (b : bool) : M unit :=
  fun m =>
    (tt, {| this := {| baseUrl := baseUrl (this m);
                       _auth := _auth (this m);
                       defaultHeaders := defaultHeaders (this m);
                       rateLimited := b |};
            world := world m |}).

(** [process.stdout.write(chunk)] *)
Definition stdout_write (chunk : string) : M unit :=
  fun m =>
    (tt, {| this := this m;
            world := {| sent := sent (world m);
                        stdout := stdout (world m) ++ [chunk] |} |}).

(** The line feed of the escape [\n]. *)
Definition LF : string := String (ascii_of_N 10) EmptyString.

(** [constructor (baseUrl, apiKey)].  It runs in the world like every other
    piece of code, and yields the fields of the new instance. *)
Definition constructor (baseUrl0 apiKey : string) : World -> FreshdeskApi * World :=
  fun w =>
    let auth := "Basic " ++ Base64.encode (apiKey ++ ":X") in
    ({| baseUrl := baseUrl0;
        _auth := auth;
        defaultHeaders := [("Content-Type", "application/json");
                           ("Authorization", auth)];
        rateLimited := false |}, w).

(** [err.code = v] and [err.retryAfter = v] *)
Definition set_code (err : JsError) (v : JsVal) : JsError :=
  {| message := message err; code := v; retryAfter := retryAfter err |}.

Definition set_retryAfter (err : JsError) (v : JsVal) : JsError :=
  {| message := message err; code := code err; retryAfter := v |}.

(** [h?.startsWith(p)] used as a condition: [undefined], which is falsy,
    when [h] is [null]. *)
Definition optional_startsWith (h : option string) (p : string) : bool :=
  match h with
  | Some s => startsWith s p
  | None => false
  end.

(** [checkStatus (res)] *)
Definition checkStatus (res : Response) : Completion Response :=
  if ok res then
    if optional_startsWith (Headers_get "content-type" (headers res))
                           "application/json"
    then Normal res
    else Throw (new_Error ("response not json: " ++
                  ToString (of_nullable (Headers_get "content-type" (headers res)))))
  else
    let err := new_Error ("response " ++ statusText res) in
    let err := set_code err (JNumber (status res)) in
    let err := if status res =? 429
               then set_retryAfter err
                      (of_nullable (Headers_get "Retry-After" (headers res)))
               else err in
    Throw err.

Section Methods.

(** The documents passed as [body] and produced by [res.json()]: plain JSON
    data, on which [JSON.stringify] returns a string. *)
Variable Json : Type.
Variable JSON_stringify : Json -> string.

(** [res.json()]: the promise of the parsed body. *)
Variable json : Response -> Settled Json.

(** The network: how the promise of [fetch] settles for a request, given
    the requests made before it. *)
Variable net : list Request -> Request -> Settled Response.

(** [fetch(url, init)] *)
Definition fetch (r : Request) : M (Settled Response) :=
  fun m =>
    (net (sent (world m)) r,
     {| this := this m;
        world := {| sent := sent (world m) ++ [r];
                    stdout := stdout (world m) |} |}).

(** [listCategories ()].  The body of the [async] function rejects when
    the awaited promise rejects or [checkStatus] throws, and otherwise
    settles as the promise of [.json()] does. *)
Definition listCategories : M (Settled Json) :=
  b <- get_this baseUrl;;
  h <- get_this defaultHeaders;;
  res <- fetch {| url := b ++ "/api/v2/solutions/categories";
                  init_method := None;
                  init_body := None;
                  init_headers := h |};;
  ret (then_promise (then_call res checkStatus) json).

(** [listFolders (category)]; only [category.id] is read. *)
Definition listFolders (category_id : JsVal) : M (Settled Json) :=
  b <- get_this baseUrl;;
  h <- get_this defaultHeaders;;
  res <- fetch {| url := b ++ "/api/v2/solutions/categories/" ++
                         ToString category_id ++ "/folders";
                  init_method := None;
                  init_body := None;
                  init_headers := h |};;
  ret (then_promise (then_call res checkStatus) json).

(** [listArticles (folder)]; only [folder.id] is read. *)
Definition listArticles (folder_id : JsVal) : M (Settled Json) :=
  b <- get_this baseUrl;;
  h <- get_this defaultHeaders;;
  res <- fetch {| url := b ++ "/api/v2/solutions/folders/" ++
                         ToString folder_id ++ "/articles";
                  init_method := None;
                  init_body := None;
                  init_headers := h |};;
  ret (then_promise (then_call res checkStatus) json).

(** [updateCategoryTranslation (id, locale, body)] *)
Definition updateCategoryTranslation (id : JsVal) (locale : string) (body0 : Json)
  : M (Upsert Json) :=
  limited <- get_this rateLimited;;
  if limited then
    stdout_write ("Rate limited, skipping id: " ++ ToString id ++
                  " for " ++ locale ++ LF);;
    ret MinusOne
  else
    b <- get_this baseUrl;;
    h <- get_this defaultHeaders;;
    res <- fetch {| url := b ++ "/api/v2/solutions/categories/" ++
                           ToString id ++ "/" ++ locale;
                    init_method := Some "put";
                    init_body := Some (JSON_stringify body0);
                    init_headers := h |};;
    match then_promise (then_call res checkStatus) json with
    | Fulfilled v => ret (Promise (Fulfilled v))
    | Rejected err =>
        if strict_eq_num (code err) 404 then
          b <- get_this baseUrl;;
          h <- get_this defaultHeaders;;
          res <- fetch {| url := b ++ "/api/v2/solutions/categories/" ++
                                 ToString id ++ "/" ++ locale;
                          init_method := Some "post";
                          init_body := Some (JSON_stringify body0);
                          init_headers := h |};;
          ret (Promise (then_promise (then_call res checkStatus) json))
        else
          (if strict_eq_num (code err) 429 then set_rateLimited true
           else ret tt);;
          stdout_write ("Error processing id " ++ ToString id ++
                        " for locale " ++ locale ++ ": " ++
                        message err ++ LF);;
          ret (Promise (Rejected err))
    end.

(** [updateFolderTranslation (id, locale, body)] *)
Definition updateFolderTranslation (id : JsVal) (locale : string) (body0 : Json)
  : M (Upsert Json) :=
  limited <- get_this rateLimited;;
  if limited then
    stdout_write ("Rate limited, skipping id: " ++ ToString id ++
                  " for " ++ locale ++ LF);;
    ret MinusOne
  else
    b <- get_this baseUrl;;
    h <- get_this defaultHeaders;;
    res <- fetch {| url := b ++ "/api/v2/solutions/folders/" ++
                           ToString id ++ "/" ++ locale;
                    init_method := Some "put";
                    init_body := Some (JSON_stringify body0);
                    init_headers := h |};;
    match then_promise (then_call res checkStatus) json with
    | Fulfilled v => ret (Promise (Fulfilled v))
    | Rejected err =>
        if strict_eq_num (code err) 404 then
          b <- get_this baseUrl;;
          h <- get_this defaultHeaders;;
          res <- fetch {| url := b ++ "/api/v2/solutions/folders/" ++
                                 ToString id ++ "/" ++ locale;
                          init_method := Some "post";
                          init_body := Some (JSON_stringify body0);
                          init_headers := h |};;
          ret (Promise (then_promise (then_call res checkStatus) json))
        else
          (if strict_eq_num (code err) 429 then set_rateLimited true
           else ret tt);;
          stdout_write ("Error processing id " ++ ToString id ++
                        " for locale " ++ locale ++ ": " ++
                        message err ++ LF);;
          ret (Promise (Rejected err))
    end.

(** [updateArticleTranslation (id, locale, body)] *)
Definition updateArticleTranslation (id : JsVal) (locale : string) (body0 : Json)
  : M (Upsert Json) :=
  limited <- get_this rateLimited;;
  if limited then
    stdout_write ("Rate limited, skipping id: " ++ ToString id ++
                  " for " ++ locale ++ LF);;
    ret MinusOne
  else
    b <- get_this baseUrl;;
    h <- get_this defaultHeaders;;
    res <- fetch {| url := b ++ "/api/v2/solutions/articles/" ++
                           ToString id ++ "/" ++ locale;
                    init_method := Some "put";
                    init_body := Some (JSON_stringify body0);
                    init_headers := h |};;
    match then_promise (then_call res checkStatus) json with
    | Fulfilled v => ret (Promise (Fulfilled v))
    | Rejected err =>
        if strict_eq_num (code err) 404 then
          b <- get_this baseUrl;;
          h <- get_this defaultHeaders;;
          res <- fetch {| url := b ++ "/api/v2/solutions/articles/" ++
                                 ToString id ++ "/" ++ locale;
                          init_method := Some "post";
                          init_body := Some (JSON_stringify body0);
                          init_headers := h |};;
          ret (Promise (then_promise (then_call res checkStatus) json))
        else
          (if strict_eq_num (code err) 429 then set_rateLimited true
           else ret tt);;
          stdout_write ("Error processing id " ++ ToString id ++
                        " for locale " ++ locale ++ ": " ++
                        message err ++ LF);;
          ret (Promise (Rejected err))
    end.

(** *** The three upserts, seen as one

    The three methods differ in one path segment only.  [upsert] is their
    common shape; [updateTranslation_upsert] below shows that each method
    is an instance of it. *)

Inductive Entity : Type := Category | Folder | Article.

Definition segment (e : Entity) : string :=
  match e with
  | Category => "categories"
  | Folder => "folders"
  | Article => "articles"
  end.

Definition updateTranslation (e : Entity)
  : JsVal -> string -> Json -> M (Upsert Json) :=
  match e with
  | Category => updateCategoryTranslation
  | Folder => updateFolderTranslation
  | Article => updateArticleTranslation
  end.

(** The URL of a translation, as the table of endpoints gives it. *)
Definition translation_url (api : FreshdeskApi) (e : Entity)
           (id : JsVal) (locale : string) : string :=
  baseUrl api ++ "/api/v2/solutions/" ++ segment e ++ "/" ++
  ToString id ++ "/" ++ locale.

(** The request an upsert makes with method [meth]. *)
Definition translation_request (api : FreshdeskApi) (e : Entity)
           (meth : string) (id : JsVal) (locale : string) (body0 : Json)
  : Request :=
  {| url := translation_url api e id locale;
     init_method := Some meth;
     init_body := Some (JSON_stringify body0);
     init_headers := defaultHeaders api |}.

(** The chain [.then(this.checkStatus).then(res => res.json())] hung on
    the promise of a [fetch]. *)
Definition settle (p : Settled Response) : Settled Json :=
  then_promise (then_call p checkStatus) json.

(** The two lines the upserts write. *)
Definition skipped_line (id : JsVal) (locale : string) : string :=
  "Rate limited, skipping id: " ++ ToString id ++ " for " ++ locale ++ LF.

Definition error_line (id : JsVal) (locale : string) (err : JsError) : string :=
  "Error processing id " ++ ToString id ++ " for locale " ++ locale ++
  ": " ++ message err ++ LF.

Definition upsert (e : Entity) (id : JsVal) (locale : string) (body0 : Json)
  : M (Upsert Json) :=
  limited <- get_this rateLimited;;
  if limited then
    stdout_write (skipped_line id locale);;
    ret MinusOne
  else
    api <- get_this (fun a => a);;
    res <- fetch (translation_request api e "put" id locale body0);;
    match settle res with
    | Fulfilled v => ret (Promise (Fulfilled v))
    | Rejected err =>
        if strict_eq_num (code err) 404 then
          api <- get_this (fun a => a);;
          res <- fetch (translation_request api e "post" id locale body0);;
          ret (Promise (settle res))
        else
          (if strict_eq_num (code err) 429 then set_rateLimited true
           else ret tt);;
          stdout_write (error_line id locale err);;
          ret (Promise (Rejected err))
    end.

(** The request of a list operation. *)
Definition list_request (api : FreshdeskApi) (path : string) : Request :=
  {| url := baseUrl api ++ path;
     init_method := None;
     init_body := None;
     init_headers := defaultHeaders api |}.

(** *** Sequences of calls on one instance *)

Inductive Call : Type :=
| CheckStatus (res : Response)
| ListCategories
| ListFolders (category_id : JsVal)
| ListArticles (folder_id : JsVal)
| UpdateTranslation (e : Entity) (id : JsVal) (locale : string) (body0 : Json).

(** One call, run until its promise has settled; the result is dropped. *)
Definition run_call (c : Call) : M unit :=
  match c with
  | CheckStatus res => ret tt
  | ListCategories => listCategories;; ret tt
  | ListFolders category_id => listFolders category_id;; ret tt
  | ListArticles folder_id => listArticles folder_id;; ret tt
  | UpdateTranslation e id locale body0 =>
      updateTranslation e id locale body0;; ret tt
  end.

Fixpoint run_calls (cs : list Call) : M unit :=
  match cs with
  | [] => ret tt
  | c :: r => run_call c;; run_calls r
  end.

End Methods.

(** *** Machines, for stating what a method leaves behind *)

(** [m] after the calls [rs] of [fetch], with nothing else changed. *)
Definition after_fetch (m : Machine) (rs : list Request) : Machine :=
  {| this := this m;
     world := {| sent := sent (world m) ++ rs;
                 stdout := stdout (world m) |} |}.

(** [m] after the chunk [line] was written, with nothing else changed. *)
Definition after_write (m : Machine) (line : string) : Machine :=
  {| this := this m;
     world := {| sent := sent (world m);
                 stdout := stdout (world m) ++ [line] |} |}.

(** [m] with the rate-limit flag of its instance set if [b] holds. *)
Definition tripped_if (b : bool) (m : Machine) : Machine :=
  if b then snd (set_rateLimited true m) else m.

(** ** A small world to run the class in

    Documents are strings, [JSON.stringify] and [res.json()] are the
    identity on them, and the network answers the n-th call of [fetch] with
    the n-th entry of a script. *)

Module Toy.

Definition Json : Type := string.

Definition stringify (j : Json) : string := j.

Definition json (res : Response) : Settled Json := Fulfilled (body res).

Definition scripted (script : list (Settled Response))
  : list Request -> Request -> Settled Response :=
  fun before _ =>
    nth (List.length before) script (Rejected (new_Error "socket hang up")).

Definition json_headers : Headers := [("Content-Type", "application/json")].

Definition reply (st : Z) (text : string) (hs : Headers) (b : string)
  : Settled Response :=
  Fulfilled {| status := st; statusText := text; headers := hs; body := b |}.

Definition fresh : World := {| sent := []; stdout := [] |}.

(** An instance made by the constructor, in a fresh world. *)
Definition start : Machine :=
  let (api, w) := constructor "https://example.freshdesk.com" "abc" fresh in
  {| this := api; world := w |}.

(** The same instance after its rate-limit flag was set. *)
Definition tripped : Machine := snd (set_rateLimited true start).

(** The answers used below. *)
Definition not_found : Settled Response :=
  reply 404 "Not Found" json_headers "{}".

Definition created : Settled Response :=
  reply 201 "Created" json_headers "{id:42,locale:fr,title:Bonjour}".

Definition too_many : Settled Response :=
  reply 429 "Too Many Requests"
        [("Content-Type", "application/json"); ("Retry-After", "60")] "{}".

Definition server_error : Settled Response :=
  reply 500 "Internal Server Error" json_headers "{}".

(** The errors [checkStatus] makes of them. *)
Definition err_not_found : JsError :=
  {| message := "response Not Found"; code := JNumber 404;
     retryAfter := JUndefined |}.

Definition err_too_many : JsError :=
  {| message := "response Too Many Requests"; code := JNumber 429;
     retryAfter := JString "60" |}.

Definition err_server : JsError :=
  {| message := "response Internal Server Error"; code := JNumber 500;
     retryAfter := JUndefined |}.

(** An upsert against a scripted network. *)
Definition update (script : list (Settled Response)) (e : Entity)
           (id : JsVal) (locale : string) (body0 : Json) : M (Upsert Json) :=
  updateTranslation Json stringify json (scripted script) e id locale body0.

(** More answers: a success without a body or a content type, and a
    success that is JSON. *)
Definition no_content : Settled Response := reply 204 "No Content" [] "".

Definition updated : Settled Response :=
  reply 200 "OK" [("content-type", "application/json; charset=utf-8")]
        "{id:42,locale:fr,title:Bonjour}".

(** The response of an answer that is one. *)
Definition response_of (p : Settled Response) : Response :=
  match p with
  | Fulfilled res => res
  | Rejected _ =>
      {| status := 0; statusText := ""; headers := []; body := "" |}
  end.

End Toy.

(** ** Vocabulary for statements about runs *)

(** [r] is a request of the instance [api]: it carries the default headers
    of [api], its URL starts with the base URL of [api], and its method is
    one of the three the class uses. *)
Definition request_from (api : FreshdeskApi) (r : Request) : Prop :=
  init_headers r = defaultHeaders api
  /\ String.prefix (baseUrl api) (url r) = true
  /\ In (wire_method r) ["GET"; "PUT"; "POST"].

(** Two instances agree on the fields the constructor computes. *)
Definition same_config (a b : FreshdeskApi) : Prop :=
  baseUrl a = baseUrl b
  /\ _auth a = _auth b
  /\ defaultHeaders a = defaultHeaders b.

(** From [m] to [m']: the calls of [fetch] and the chunks written were
    added at the end of what was there, at most [calls] and [writes] of
    them; the new requests are requests of the instance; and the instance
    kept the fields the constructor computes. *)
Inductive Effect (m m' : Machine) (calls writes : nat) : Prop :=
| mkEffect (new : list Request) (out : list string)
    (eff_sent : sent (world m') = (sent (world m) ++ new)%list)
    (eff_stdout : stdout (world m') = (stdout (world m) ++ out)%list)
    (eff_config : same_config (this m') (this m))
    (eff_calls : (List.length new <= calls)%nat)
    (eff_writes : (List.length out <= writes)%nat)
    (eff_from : Forall (request_from (this m)) new).

(** The calls that are upserts. *)
Definition is_upsert {Json : Type} (c : Call Json) : bool :=
  match c with
  | UpdateTranslation _ _ _ _ _ => true
  | _ => false
  end.

(** The calls that are list operations. *)
Definition is_list {Json : Type} (c : Call Json) : bool :=
  match c with
  | ListCategories _ | ListFolders _ _ | ListArticles _ _ => true
  | _ => false
  end.

(** [p] holds of every character of [s]. *)
Fixpoint string_forallb (p : ascii -> bool) (s : string) : bool :=
  match s with
  | EmptyString => true
  | String c r => p c && string_forallb p r
  end.

(** The 65 characters a Base64 text is made of. *)
Definition in_alphabet (c : ascii) : bool :=
  match Base64.value c with
  | Some _ => true
  | None => Base64.is_pad c
  end.

(** The characters that may not occur in the value of a header. *)
Definition breaks_header (c : ascii) : bool :=
  (N_of_ascii c =? 13)%N || (N_of_ascii c =? 10)%N || (N_of_ascii c =? 0)%N.

(** * Properties *)

(** ** Base64 loses nothing *)

Module Base64Facts.

Import Base64.
Open Scope N_scope.

Local Ltac Zify.zify_post_hook ::= Z.to_euclidean_division_equations.

Lemma value_digit (n : N) : n < 64 -> value (digit n) = Some n.
Proof.
  intros H. destruct n as [|p]; [reflexivity|].
  do 6 (destruct p as [p|p|]; try reflexivity); lia.
Qed.

Lemma digit_not_pad (n : N) : n < 64 -> is_pad (digit n) = false.
Proof.
  intros H. destruct n as [|p]; [reflexivity|].
  do 6 (destruct p as [p|p|]; try reflexivity); lia.
Qed.

Lemma decode_group (c1 c2 c3 c4 : ascii) (rest : string) :
  decode (String c1 (String c2 (String c3 (String c4 rest)))) =
  match value c1, value c2 with
  | Some v1, Some v2 =>
      let a := ascii_of_N (v1 * 4 + v2 / 16) in
      if is_pad c3 then
        if is_pad c4 && is_empty rest && (v2 mod 16 =? 0)
        then Some (String a EmptyString) else None
      else
        match value c3 with
        | Some v3 =>
            let b := ascii_of_N ((v2 mod 16) * 16 + v3 / 4) in
            if is_pad c4 then
              if is_empty rest && (v3 mod 4 =? 0)
              then Some (String a (String b EmptyString)) else None
            else
              match value c4, decode rest with
              | Some v4, Some r =>
                  let c := ascii_of_N ((v3 mod 4) * 64 + v4) in
                  Some (String a (String b (String c r)))
              | _, _ => None
              end
        | None => None
        end
  | _, _ => None
  end.
Proof. reflexivity. Qed.

Lemma byte_bound (x : ascii) : N_of_ascii x < 256.
Proof. apply N_ascii_bounded. Qed.

(** Re-assembling a byte from its value gives the byte back. *)
Lemma byte_of (x : ascii) (n : N) : n = N_of_ascii x -> ascii_of_N n = x.
Proof. intros ->. apply ascii_N_embedding. Qed.

Lemma decode_enc1 (x : ascii) :
  decode (enc1 (N_of_ascii x) EmptyString) = Some (String x EmptyString).
Proof.
  pose proof (byte_bound x) as Hx. unfold enc1.
  rewrite decode_group, !value_digit by lia.
  cbv beta iota zeta.
  replace (is_pad pad) with true by reflexivity.
  replace (is_empty EmptyString) with true by reflexivity.
  replace (N_of_ascii x mod 4 * 16 mod 16 =? 0) with true
    by (symmetry; apply N.eqb_eq; lia).
  cbn [andb]. f_equal. f_equal. apply byte_of. lia.
Qed.

Lemma decode_enc2 (x y : ascii) :
  decode (enc2 (N_of_ascii x) (N_of_ascii y) EmptyString) =
  Some (String x (String y EmptyString)).
Proof.
  pose proof (byte_bound x) as Hx. pose proof (byte_bound y) as Hy.
  unfold enc2.
  rewrite decode_group, !value_digit, digit_not_pad by lia.
  cbv beta iota zeta.
  replace (is_pad pad) with true by reflexivity.
  replace (is_empty EmptyString) with true by reflexivity.
  replace (N_of_ascii y mod 16 * 4 mod 4 =? 0) with true
    by (symmetry; apply N.eqb_eq; lia).
  cbn [andb]. f_equal. f_equal; [|f_equal]; apply byte_of; lia.
Qed.

Lemma decode_enc3 (x y z : ascii) (k : string) :
  decode (enc3 (N_of_ascii x) (N_of_ascii y) (N_of_ascii z) k) =
  match decode k with
  | Some r => Some (String x (String y (String z r)))
  | None => None
  end.
Proof.
  pose proof (byte_bound x) as Hx. pose proof (byte_bound y) as Hy.
  pose proof (byte_bound z) as Hz.
  unfold enc3.
  rewrite decode_group, !value_digit, !digit_not_pad by lia.
  cbv beta iota zeta.
  destruct (decode k) as [r|]; [|reflexivity].
  f_equal. f_equal; [|f_equal; [|f_equal]]; apply byte_of; lia.
Qed.

(** Decoding an encoding yields the bytes that were encoded. *)
Lemma decode_encode (s : string) : decode (encode s) = Some s.
Proof.
  enough (H : decode (encode s) = Some s
              /\ (forall a, decode (encode (String a s)) = Some (String a s))
              /\ (forall a b, decode (encode (String a (String b s)))
                              = Some (String a (String b s))))
    by apply H.
  induction s as [|c s (IH0 & IH1 & IH2)].
  - repeat split; intros.
    + apply decode_enc1.
    + apply decode_enc2.
  - repeat split; intros.
    + apply IH1.
    + apply IH2.
    + change (encode (String a (String b (String c s))))
        with (enc3 (N_of_ascii a) (N_of_ascii b) (N_of_ascii c) (encode s)).
      rewrite decode_enc3, IH0. reflexivity.
Qed.


End Base64Facts.

(** ** Response validation *)

Lemma strict_eq_num_true (v : JsVal) (n : Z) :
  strict_eq_num v n = true <-> v = JNumber n.
Proof.
  destruct v as [| |k|s]; simpl; split; try discriminate.
  - intros H. apply Z.eqb_eq in H. now subst.
  - intros H. injection H as ->. apply Z.eqb_refl.
Qed.

Lemma strict_eq_num_false (v : JsVal) (n : Z) :
  strict_eq_num v n = false <-> v <> JNumber n.
Proof.
  rewrite <- strict_eq_num_true. destruct (strict_eq_num v n); split;
    congruence.
Qed.

Lemma ok_range (res : Response) :
  ok res = true <-> 200 <= status res <= 299.
Proof. unfold ok. rewrite andb_true_iff, !Z.leb_le. tauto. Qed.

(** C6.  A response whose status lies outside 200..299 makes [checkStatus]
    throw an error whose [code] is the status and whose message carries the
    status text; [retryAfter] is set exactly when the status is 429, to the
    value of the [Retry-After] header ([null] when the header is absent);
    in particular a header that is present is carried as it is. *)
Theorem checkStatus_http_error (res : Response) :
  ~ (200 <= status res <= 299) ->
  checkStatus res =
    Throw {| message := "response " ++ statusText res;
             code := JNumber (status res);
             retryAfter :=
               if status res =? 429
               then of_nullable (Headers_get "Retry-After" (headers res))
               else JUndefined |}
  /\ (forall v, status res = 429 ->
                Headers_get "Retry-After" (headers res) = Some v ->
                exists err, checkStatus res = Throw err /\
                            code err = JNumber 429 /\
                            retryAfter err = JString v).
Proof.
  intros Hr.
  assert (Hok : ok res = false).
  { destruct (ok res) eqn:E; [|reflexivity]. apply ok_range in E. tauto. }
  assert (Heq : checkStatus res =
    Throw {| message := "response " ++ statusText res;
             code := JNumber (status res);
             retryAfter :=
               if status res =? 429
               then of_nullable (Headers_get "Retry-After" (headers res))
               else JUndefined |}).
  { unfold checkStatus. rewrite Hok.
    destruct (status res =? 429); reflexivity. }
  split; [exact Heq|].
  intros v H429 Hv. eexists. split; [exact Heq|].
  cbn [code retryAfter]. rewrite H429, Hv. split; reflexivity.
Qed.

(** C7.  Whatever the body: a response with a status in 200..299 whose
    [content-type] header is absent or does not start with
    [application/json] makes [checkStatus] throw an error whose message
    carries the header as read ([null] when absent), and one whose
    [content-type] starts with [application/json] is returned as it is. *)
Theorem checkStatus_content_type
        (st : Z) (text : string) (hs : Headers) (payload : string) :
  200 <= st <= 299 ->
  let res := {| status := st; statusText := text;
                headers := hs; body := payload |} in
  match Headers_get "content-type" hs with
  | Some ct =>
      if startsWith ct "application/json"
      then checkStatus res = Normal res
      else checkStatus res = Throw (new_Error ("response not json: " ++ ct))
  | None =>
      checkStatus res = Throw (new_Error "response not json: null")
  end.
Proof.
  intros Hr res.
  assert (Hok : ok res = true) by (apply ok_range; exact Hr).
  unfold checkStatus. rewrite Hok. subst res. cbn [headers].
  destruct (Headers_get "content-type" hs) as [ct|]; cbn [optional_startsWith].
  - destruct (startsWith ct "application/json"); reflexivity.
  - reflexivity.
Qed.

(** ** Construction *)

(** C9.  Construction leaves the world as it found it (no call of [fetch],
    nothing written), and the instance it yields has the authorization
    ["Basic " ++ base64 (apiKey ++ ":X")], stored in the default headers
    after [Content-Type: application/json]; decoding the part after
    ["Basic "] gives [apiKey ++ ":X"] back. *)
Theorem constructor_auth_header (baseUrl0 apiKey : string) (w : World) :
  let (api, w') := constructor baseUrl0 apiKey w in
  w' = w
  /\ _auth api = "Basic " ++ Base64.encode (apiKey ++ ":X")
  /\ defaultHeaders api = [("Content-Type", "application/json");
                           ("Authorization", _auth api)]
  /\ Headers_get "Authorization" (defaultHeaders api) = Some (_auth api)
  /\ Headers_get "Content-Type" (defaultHeaders api) = Some "application/json"
  /\ Base64.decode (Base64.encode (apiKey ++ ":X")) = Some (apiKey ++ ":X")
  /\ baseUrl api = baseUrl0
  /\ rateLimited api = false.
Proof.
  unfold constructor. cbn [_auth defaultHeaders baseUrl rateLimited].
  repeat split. apply Base64Facts.decode_encode.
Qed.

(** ** The methods *)

Section MethodFacts.

Variable Json : Type.
Variable JSON_stringify : Json -> string.
Variable json : Response -> Settled Json.
Variable net : list Request -> Request -> Settled Response.

Local Abbreviation update := (updateTranslation Json JSON_stringify json net).
Local Abbreviation request := (translation_request Json JSON_stringify).
Local Abbreviation settle := (settle Json json).

(** Each of the three methods is [upsert] at its path segment. *)
Lemma updateTranslation_upsert (e : Entity) :
  update e = upsert Json JSON_stringify json net e.
Proof. destruct e; reflexivity. Qed.

(** The four ways an upsert can run. *)

Lemma upsert_run_limited e id locale body0 m :
  rateLimited (this m) = true ->
  update e id locale body0 m =
    (MinusOne, after_write m (skipped_line id locale)).
Proof.
  intros Hlim. rewrite updateTranslation_upsert.
  unfold upsert, bind, get_this. rewrite Hlim. reflexivity.
Qed.

Lemma upsert_run_put_ok e id locale body0 m v :
  rateLimited (this m) = false ->
  settle (net (sent (world m)) (request (this m) e "put" id locale body0))
    = Fulfilled v ->
  update e id locale body0 m =
    (Promise (Fulfilled v),
     after_fetch m [request (this m) e "put" id locale body0]).
Proof.
  intros Hlim Hput. rewrite updateTranslation_upsert.
  unfold upsert, bind, get_this, fetch. rewrite Hlim.
  cbn [this world sent stdout]. rewrite Hput. reflexivity.
Qed.

Lemma upsert_run_put_404 e id locale body0 m err :
  rateLimited (this m) = false ->
  settle (net (sent (world m)) (request (this m) e "put" id locale body0))
    = Rejected err ->
  code err = JNumber 404 ->
  update e id locale body0 m =
    (Promise (settle
       (net (sent (world m) ++ [request (this m) e "put" id locale body0])
            (request (this m) e "post" id locale body0))),
     after_fetch m [request (this m) e "put" id locale body0;
                    request (this m) e "post" id locale body0]).
Proof.
  intros Hlim Hput Hcode. rewrite updateTranslation_upsert.
  unfold upsert, bind, get_this, fetch. rewrite Hlim.
  cbn [this world sent stdout]. rewrite Hput, Hcode.
  cbn [strict_eq_num Z.eqb Pos.eqb]. cbn [this world sent stdout ret].
  unfold after_fetch. rewrite <- app_assoc. reflexivity.
Qed.

Lemma upsert_run_put_failed e id locale body0 m err :
  rateLimited (this m) = false ->
  settle (net (sent (world m)) (request (this m) e "put" id locale body0))
    = Rejected err ->
  code err <> JNumber 404 ->
  update e id locale body0 m =
    (Promise (Rejected err),
     after_write
       (tripped_if (strict_eq_num (code err) 429)
          (after_fetch m [request (this m) e "put" id locale body0]))
       (error_line id locale err)).
Proof.
  intros Hlim Hput Hcode. apply strict_eq_num_false in Hcode.
  rewrite updateTranslation_upsert.
  unfold upsert, bind, get_this, fetch. rewrite Hlim.
  cbn [this world sent stdout]. rewrite Hput, Hcode.
  destruct (strict_eq_num (code err) 429); reflexivity.
Qed.

(** The list operations: one request, and nothing else. *)

Lemma listCategories_run m :
  listCategories Json json net m =
    (settle (net (sent (world m))
                 (list_request (this m) "/api/v2/solutions/categories")),
     after_fetch m [list_request (this m) "/api/v2/solutions/categories"]).
Proof. reflexivity. Qed.

Lemma listFolders_run category_id m :
  listFolders Json json net category_id m =
    (settle (net (sent (world m))
                 (list_request (this m)
                    ("/api/v2/solutions/categories/" ++
                     ToString category_id ++ "/folders"))),
     after_fetch m [list_request (this m)
                      ("/api/v2/solutions/categories/" ++
                       ToString category_id ++ "/folders")]).
Proof. reflexivity. Qed.

Lemma listArticles_run folder_id m :
  listArticles Json json net folder_id m =
    (settle (net (sent (world m))
                 (list_request (this m)
                    ("/api/v2/solutions/folders/" ++
                     ToString folder_id ++ "/articles"))),
     after_fetch m [list_request (this m)
                      ("/api/v2/solutions/folders/" ++
                       ToString folder_id ++ "/articles")]).
Proof. reflexivity. Qed.

(** A call never clears the flag. *)
Lemma run_call_keeps_flag (c : Call Json) (m : Machine) :
  rateLimited (this m) = true ->
  rateLimited (this (snd (run_call Json JSON_stringify json net c m))) = true.
Proof.
  intros Hlim. destruct c as [res| |cid|fid|e id locale body0];
    cbn [run_call]; unfold bind.
  - exact Hlim.
  - rewrite listCategories_run. exact Hlim.
  - rewrite listFolders_run. exact Hlim.
  - rewrite listArticles_run. exact Hlim.
  - rewrite (upsert_run_limited e id locale body0 m Hlim). exact Hlim.
Qed.

(** C1.  With the flag clear, when the chain hung on the PUT rejects with
    an error whose [code] is 404, the method calls [fetch] exactly twice:
    the PUT, then one POST with the URL, the body and the headers of the
    PUT (the default headers); its promise settles as the chain hung on
    that POST does; and nothing else changes. *)
Theorem upsert_fallback_law
        (e : Entity) (id : JsVal) (locale : string) (body0 : Json)
        (m : Machine) (err : JsError) :
  let put := request (this m) e "put" id locale body0 in
  let post := request (this m) e "post" id locale body0 in
  rateLimited (this m) = false ->
  settle (net (sent (world m)) put) = Rejected err ->
  code err = JNumber 404 ->
  update e id locale body0 m =
    (Promise (settle (net (sent (world m) ++ [put]) post)),
     after_fetch m [put; post])
  /\ wire_method put = "PUT" /\ wire_method post = "POST"
  /\ url post = url put
  /\ init_body post = init_body put
  /\ init_body post = Some (JSON_stringify body0)
  /\ init_headers post = init_headers put
  /\ init_headers post = defaultHeaders (this m).
Proof.
  intros put post Hlim Hput Hcode. split.
  - exact (upsert_run_put_404 e id locale body0 m err Hlim Hput Hcode).
  - repeat split.
Qed.

(** C3.  With the flag set, every upsert returns [-1], writes one line
    naming the id and the locale, and calls [fetch] not at all. *)
Theorem upsert_circuit_breaker
        (e : Entity) (id : JsVal) (locale : string) (body0 : Json)
        (m : Machine) :
  rateLimited (this m) = true ->
  update e id locale body0 m =
    (MinusOne,
     {| this := this m;
        world := {| sent := sent (world m);
                    stdout := stdout (world m) ++
                      ["Rate limited, skipping id: " ++ ToString id ++
                       " for " ++ locale ++ LF] |} |}).
Proof. intros Hlim. exact (upsert_run_limited e id locale body0 m Hlim). Qed.

(** C5.  With the flag clear, when the chain hung on the PUT rejects with
    an error whose [code] is not 404, the PUT is the only call of [fetch],
    the promise rejects with that very error, the line naming id, locale
    and message is written, and the flag ends up set exactly when the code
    is 429. *)
Theorem upsert_non_404_failure
        (e : Entity) (id : JsVal) (locale : string) (body0 : Json)
        (m : Machine) (err : JsError) :
  let put := request (this m) e "put" id locale body0 in
  rateLimited (this m) = false ->
  settle (net (sent (world m)) put) = Rejected err ->
  code err <> JNumber 404 ->
  let (r, m') := update e id locale body0 m in
  r = Promise (Rejected err)
  /\ sent (world m') = (sent (world m) ++ [put])%list
  /\ stdout (world m') =
       (stdout (world m) ++
        ["Error processing id " ++ ToString id ++ " for locale " ++ locale ++
         ": " ++ message err ++ LF]%string)%list
  /\ rateLimited (this m') = strict_eq_num (code err) 429
  /\ (code err = JNumber 429 -> rateLimited (this m') = true)
  /\ baseUrl (this m') = baseUrl (this m)
  /\ _auth (this m') = _auth (this m)
  /\ defaultHeaders (this m') = defaultHeaders (this m).
Proof.
  intros put Hlim Hput Hcode. subst put.
  rewrite (upsert_run_put_failed e id locale body0 m err Hlim Hput Hcode).
  assert (Hflag : rateLimited (this (after_write
            (tripped_if (strict_eq_num (code err) 429)
               (after_fetch m [request (this m) e "put" id locale body0]))
            (error_line id locale err)))
          = strict_eq_num (code err) 429).
  { destruct (strict_eq_num (code err) 429); [reflexivity | exact Hlim]. }
  split; [reflexivity|].
  split; [destruct (strict_eq_num (code err) 429); reflexivity|].
  split; [destruct (strict_eq_num (code err) 429); reflexivity|].
  split; [exact Hflag|].
  split; [intros H429; rewrite Hflag; now apply strict_eq_num_true|].
  repeat split; destruct (strict_eq_num (code err) 429); reflexivity.
Qed.

(** C8.  The constructor makes an instance whose flag is clear, and a flag
    that is set stays set through every sequence of calls of the methods,
    whatever the network answers. *)
Theorem rateLimited_is_one_way :
  (forall (baseUrl0 apiKey : string) (w : World),
      rateLimited (fst (constructor baseUrl0 apiKey w)) = false)
  /\ (forall (cs : list (Call Json)) (m : Machine),
         rateLimited (this m) = true ->
         rateLimited
           (this (snd (run_calls Json JSON_stringify json net cs m))) = true).
Proof.
  split; [reflexivity|].
  induction cs as [|c cs IH]; intros m Hlim.
  - exact Hlim.
  - cbn [run_calls]. unfold bind.
    pose proof (run_call_keeps_flag c m Hlim) as Hc.
    destruct (run_call Json JSON_stringify json net c m) as [u m1].
    apply IH. exact Hc.
Qed.

(** C10.  Whatever the flag says, each list operation calls [fetch] once,
    with method GET, its URL and the default headers; its promise settles
    as the chain hung on that request does; and the instance, its flag
    included, is left as it was, however that promise settles. *)
Theorem list_operations_bypass_flag (m : Machine) :
  let categories := list_request (this m) "/api/v2/solutions/categories" in
  let folders := fun category_id =>
    list_request (this m)
      ("/api/v2/solutions/categories/" ++ ToString category_id ++ "/folders") in
  let articles := fun folder_id =>
    list_request (this m)
      ("/api/v2/solutions/folders/" ++ ToString folder_id ++ "/articles") in
  listCategories Json json net m =
    (settle (net (sent (world m)) categories), after_fetch m [categories])
  /\ (forall category_id,
         listFolders Json json net category_id m =
           (settle (net (sent (world m)) (folders category_id)),
            after_fetch m [folders category_id]))
  /\ (forall folder_id,
         listArticles Json json net folder_id m =
           (settle (net (sent (world m)) (articles folder_id)),
            after_fetch m [articles folder_id]))
  /\ (forall path, wire_method (list_request (this m) path) = "GET"
                   /\ init_headers (list_request (this m) path)
                      = defaultHeaders (this m))
  /\ (forall rs, this (after_fetch m rs) = this m).
Proof. repeat split. Qed.

End MethodFacts.

(** ** The fallback POST is left unhandled

    The handler passed to [.catch] returns the promise of the fallback POST
    before it reaches the test for 429 and the write of the error line, and
    nothing is hung on that promise.  The two facts below run each of the
    three methods on a PUT answered 404 followed by a POST that fails. *)

(** C2.  PUT answered 404, POST answered 429: the promise rejects with the
    error of code 429, and the flag of the instance is still clear. *)
Theorem fallback_post_429_leaves_flag_clear (e : Entity) :
  let (r, m') := Toy.update [Toy.not_found; Toy.too_many] e
                            (JNumber 42) "fr" "{title:Bonjour}" Toy.start in
  r = Promise (Rejected Toy.err_too_many)
  /\ code Toy.err_too_many = JNumber 429
  /\ List.length (sent (world m')) = 2%nat
  /\ rateLimited (this m') = false.
Proof. destruct e; vm_compute; repeat split. Qed.

(** C4.  PUT answered 404, POST answered 500: the promise rejects with the
    error of the POST, and nothing was written to standard output. *)
Theorem fallback_post_failure_writes_nothing (e : Entity) :
  let (r, m') := Toy.update [Toy.not_found; Toy.server_error] e
                            (JNumber 42) "fr" "{title:Bonjour}" Toy.start in
  r = Promise (Rejected Toy.err_server)
  /\ List.length (sent (world m')) = 2%nat
  /\ stdout (world m') = [].
Proof. destruct e; vm_compute; repeat split. Qed.

(** ** The theorems at work *)

(** [updateArticleTranslation(42, "fr", ..)]: PUT answered 404, POST
    answered 201. *)
Lemma upsert_fallback_law_witness :
  Toy.update [Toy.not_found; Toy.created] Article
             (JNumber 42) "fr" "{title:Bonjour}" Toy.start
  = (Promise (Fulfilled "{id:42,locale:fr,title:Bonjour}"),
     after_fetch Toy.start
       [translation_request Toy.Json Toy.stringify (this Toy.start) Article
          "put" (JNumber 42) "fr" "{title:Bonjour}";
        translation_request Toy.Json Toy.stringify (this Toy.start) Article
          "post" (JNumber 42) "fr" "{title:Bonjour}"]).
Proof.
  exact (proj1 (upsert_fallback_law Toy.Json Toy.stringify Toy.json
                  (Toy.scripted [Toy.not_found; Toy.created])
                  Article (JNumber 42) "fr" "{title:Bonjour}" Toy.start
                  Toy.err_not_found eq_refl eq_refl eq_refl)).
Defined.

(** An upsert on an instance whose flag is set. *)
Lemma upsert_circuit_breaker_witness :
  Toy.update [Toy.created] Category (JNumber 1) "en" "{}" Toy.tripped
  = (MinusOne,
     after_write Toy.tripped
       ("Rate limited, skipping id: 1 for en" ++ LF)).
Proof.
  exact (upsert_circuit_breaker Toy.Json Toy.stringify Toy.json
           (Toy.scripted [Toy.created])
           Category (JNumber 1) "en" "{}" Toy.tripped eq_refl).
Defined.

(** [updateFolderTranslation(7, "en", ..)]: PUT answered 429. *)
Lemma upsert_non_404_failure_witness :
  let (r, m') := Toy.update [Toy.too_many] Folder
                            (JNumber 7) "en" "{}" Toy.start in
  r = Promise (Rejected Toy.err_too_many)
  /\ List.length (sent (world m')) = 1%nat
  /\ rateLimited (this m') = true.
Proof.
  pose proof (upsert_non_404_failure Toy.Json Toy.stringify Toy.json
                (Toy.scripted [Toy.too_many])
                Folder (JNumber 7) "en" "{}" Toy.start Toy.err_too_many
                eq_refl eq_refl ltac:(discriminate)) as H.
  unfold Toy.update.
  destruct (updateTranslation Toy.Json Toy.stringify Toy.json
              (Toy.scripted [Toy.too_many]) Folder (JNumber 7) "en" "{}"
              Toy.start) as [r m'].
  destruct H as (Hr & Hsent & _ & _ & Hflag & _).
  split; [exact Hr|]. split; [rewrite Hsent; reflexivity|].
  apply Hflag. reflexivity.
Defined.

(** A 429 with a [Retry-After] header. *)
Lemma checkStatus_http_error_witness :
  checkStatus {| status := 429; statusText := "Too Many Requests";
                 headers := [("retry-after", "60")]; body := "" |}
  = Throw Toy.err_too_many.
Proof.
  exact (proj1 (checkStatus_http_error
                  {| status := 429; statusText := "Too Many Requests";
                     headers := [("retry-after", "60")]; body := "" |}
                  ltac:(cbn; lia))).
Defined.

(** A 200 that announces HTML. *)
Lemma checkStatus_content_type_witness :
  checkStatus {| status := 200; statusText := "OK";
                 headers := [("Content-Type", "text/html")];
                 body := "{}" |}
  = Throw (new_Error "response not json: text/html").
Proof.
  exact (checkStatus_content_type 200 "OK" [("Content-Type", "text/html")]
           "{}" ltac:(lia)).
Defined.

(** A set flag survives a PUT that would succeed, a list and another
    upsert. *)
Lemma rateLimited_is_one_way_witness :
  rateLimited (this Toy.tripped) = true
  /\ rateLimited
       (this (snd (run_calls Toy.Json Toy.stringify Toy.json
                     (Toy.scripted [Toy.created; Toy.too_many])
                     [UpdateTranslation Toy.Json Category (JNumber 1) "en" "{}";
                      ListCategories Toy.Json;
                      UpdateTranslation Toy.Json Article (JNumber 2) "fr" "{}"]
                     Toy.tripped))) = true.
Proof.
  split; [reflexivity|].
  apply (proj2 (rateLimited_is_one_way Toy.Json Toy.stringify Toy.json
                  (Toy.scripted [Toy.created; Toy.too_many]))).
  reflexivity.
Defined.

(** A PUT answered 429 on a folder trips the flag; the upsert of a category
    that follows on the same instance returns [-1] and the PUT stays the
    only call of [fetch]. *)
Example rate_limit_scenario :
  let net := Toy.scripted [Toy.too_many; Toy.created] in
  let (r1, m1) := updateFolderTranslation Toy.Json Toy.stringify Toy.json net
                    (JNumber 7) "en" "{}" Toy.start in
  let (r2, m2) := updateCategoryTranslation Toy.Json Toy.stringify Toy.json net
                    (JNumber 1) "en" "{}" m1 in
  r1 = Promise (Rejected Toy.err_too_many)
  /\ rateLimited (this m1) = true
  /\ r2 = MinusOne
  /\ sent (world m2) = sent (world m1)
  /\ List.length (sent (world m2)) = 1%nat.
Proof. vm_compute. repeat split. Qed.

(** [listCategories()] against a 200 with a JSON content type resolves to
    the document of the body. *)
Example list_categories_scenario :
  fst (listCategories Toy.Json Toy.json
         (Toy.scripted [Toy.reply 200 "OK" Toy.json_headers "[{id:1,name:FAQ}]"])
         Toy.start)
  = Fulfilled "[{id:1,name:FAQ}]".
Proof. reflexivity. Qed.

(** * Further properties of the class *)

(** ** The authorization header *)

Module AuthFacts.

Import Base64.

Lemma in_alphabet_digit (n : N) : (n < 64)%N -> in_alphabet (digit n) = true.
Proof.
  intros H. unfold in_alphabet. now rewrite Base64Facts.value_digit.
Qed.

Lemma in_alphabet_pad : in_alphabet pad = true.
Proof. reflexivity. Qed.

Local Ltac Zify.zify_post_hook ::= Z.to_euclidean_division_equations.

(** A property of all strings follows from the empty string, the strings
    of one and two characters, and three characters put in front. *)
Lemma by_triples (P : string -> Prop) :
  P EmptyString ->
  (forall a, P (String a EmptyString)) ->
  (forall a b, P (String a (String b EmptyString))) ->
  (forall a b c r, P r -> P (String a (String b (String c r)))) ->
  forall s, P s.
Proof.
  intros H0 H1 H2 H3 s.
  enough (H : P s /\ (forall a, P (String a s))
              /\ (forall a b, P (String a (String b s)))) by apply H.
  induction s as [|c s (I0 & I1 & I2)].
  - repeat split; auto.
  - repeat split; auto.
Qed.

Lemma encode_alphabet (s : string) :
  string_forallb in_alphabet (encode s) = true.
Proof.
  induction s as [|a|a b|a b c r IH] using by_triples.
  - reflexivity.
  - pose proof (Base64Facts.byte_bound a).
    cbn [encode enc1 string_forallb].
    rewrite !in_alphabet_digit, in_alphabet_pad by lia. reflexivity.
  - pose proof (Base64Facts.byte_bound a).
    pose proof (Base64Facts.byte_bound b).
    cbn [encode enc2 string_forallb].
    rewrite !in_alphabet_digit, in_alphabet_pad by lia. reflexivity.
  - pose proof (Base64Facts.byte_bound a).
    pose proof (Base64Facts.byte_bound b).
    pose proof (Base64Facts.byte_bound c).
    change (encode (String a (String b (String c r))))
      with (enc3 (N_of_ascii a) (N_of_ascii b) (N_of_ascii c) (encode r)).
    cbn [enc3 string_forallb].
    rewrite !in_alphabet_digit, IH by lia. reflexivity.
Qed.

Lemma encode_length (s : string) :
  String.length (encode s) = (4 * ((String.length s + 2) / 3))%nat.
Proof.
  induction s as [|a|a b|a b c r IH] using by_triples; try reflexivity.
  change (encode (String a (String b (String c r))))
    with (enc3 (N_of_ascii a) (N_of_ascii b) (N_of_ascii c) (encode r)).
  cbn [enc3 String.length]. rewrite IH.
  replace (S (S (S (String.length r))) + 2)%nat
    with (String.length r + 2 + 1 * 3)%nat by lia.
  rewrite Nat.div_add by discriminate. lia.
Qed.

Lemma length_append (s t : string) :
  String.length (s ++ t) = (String.length s + String.length t)%nat.
Proof. induction s as [|c s IH]; cbn; [reflexivity | now rewrite IH]. Qed.


Lemma alphabet_is_safe (c : ascii) :
  in_alphabet c = true -> breaks_header c = false.
Proof.
  destruct c as [[] [] [] [] [] [] [] []]; vm_compute; congruence.
Qed.

Lemma forallb_weaken (p q : ascii -> bool) (s : string) :
  (forall c, p c = true -> q c = true) ->
  string_forallb p s = true -> string_forallb q s = true.
Proof.
  intros Hpq. induction s as [|c s IH]; cbn; [reflexivity|].
  rewrite !andb_true_iff. intros [Hc Hs]. split; auto.
Qed.

End AuthFacts.

(** X1.  Whatever the API key is (line feeds and other control characters
    included), the authorization the constructor computes is ["Basic "]
    followed by a text over the Base64 alphabet, of length
    [4 * ceil ((|apiKey| + 2) / 3)]; so neither CR, LF nor NUL occurs in the
    header, and it is the value stored under [Authorization]. *)
Theorem auth_header_well_formed (baseUrl0 apiKey : string) (w : World) :
  let api := fst (constructor baseUrl0 apiKey w) in
  exists t : string,
    _auth api = "Basic " ++ t
    /\ string_forallb in_alphabet t = true
    /\ String.length t = (4 * ((String.length apiKey + 4) / 3))%nat
    /\ string_forallb (fun c => negb (breaks_header c)) (_auth api) = true
    /\ Headers_get "authorization" (defaultHeaders api) = Some (_auth api).
Proof.
  cbn [constructor fst _auth defaultHeaders].
  exists (Base64.encode (apiKey ++ ":X")).
  split; [reflexivity|].
  split; [apply AuthFacts.encode_alphabet|].
  split.
  { rewrite AuthFacts.encode_length, AuthFacts.length_append. cbn [String.length].
    replace (String.length apiKey + 2 + 2)%nat
      with (String.length apiKey + 4)%nat by lia.
    reflexivity. }
  split; [|reflexivity].
  cbn [append string_forallb].
  replace (negb (breaks_header "B")) with true by reflexivity.
  replace (negb (breaks_header "a")) with true by reflexivity.
  replace (negb (breaks_header "s")) with true by reflexivity.
  replace (negb (breaks_header "i")) with true by reflexivity.
  replace (negb (breaks_header "c")) with true by reflexivity.
  replace (negb (breaks_header " ")) with true by reflexivity.
  cbn [andb].
  apply (AuthFacts.forallb_weaken in_alphabet).
  - intros c Hc. now rewrite AuthFacts.alphabet_is_safe.
  - apply AuthFacts.encode_alphabet.
Qed.


(** ** What [checkStatus] throws *)

(** X3.  [checkStatus] returns nothing but the response it was given, and
    that only for a status in 200..299.  An error it throws has the status
    as its [code] when the status is outside 200..299 and no [code] at all
    otherwise; so the error has code 404 (or 429) exactly when the status
    is 404 (or 429), and carries a [retryAfter] only for 429. *)
Theorem checkStatus_outcomes (res : Response) :
  match checkStatus res with
  | Normal r =>
      r = res /\ 200 <= status res <= 299
  | Throw err =>
      (code err = JNumber 404 <-> status res = 404)
      /\ (code err = JNumber 429 <-> status res = 429)
      /\ (retryAfter err <> JUndefined -> status res = 429)
      /\ (200 <= status res <= 299 -> code err = JUndefined)
      /\ (~ 200 <= status res <= 299 -> code err = JNumber (status res))
  end.
Proof.
  unfold checkStatus. destruct (ok res) eqn:Hok.
  - apply ok_range in Hok.
    destruct (optional_startsWith _ _).
    + split; [reflexivity | exact Hok].
    + cbn [new_Error code retryAfter].
      repeat split; try discriminate; try lia; try tauto.
  - assert (Hr : ~ 200 <= status res <= 299).
    { intros H. apply ok_range in H. congruence. }
    assert (Hcode : forall n, JNumber (status res) = JNumber n <-> status res = n).
    { intros n. split; [intros H; now injection H | intros ->; reflexivity]. }
    destruct (status res =? 429) eqn:E;
      cbn [new_Error set_code set_retryAfter code retryAfter message].
    + apply Z.eqb_eq in E.
      repeat split; try apply Hcode; try tauto.
    + apply Z.eqb_neq in E.
      repeat split; try apply Hcode; try tauto.
Qed.

(** ** Upserts, by the answer of the server *)

Section RunFacts.

Variable Json : Type.
Variable JSON_stringify : Json -> string.
Variable json : Response -> Settled Json.
Variable net : list Request -> Request -> Settled Response.

Local Abbreviation update := (updateTranslation Json JSON_stringify json net).
Local Abbreviation request := (translation_request Json JSON_stringify).
Local Abbreviation chain := (settle Json json).
Local Abbreviation run := (run_calls Json JSON_stringify json net).

Lemma settle_response (res : Response) :
  chain (Fulfilled res) =
  match checkStatus res with
  | Normal r => json r
  | Throw e => Rejected e
  end.
Proof.
  unfold settle, then_promise, then_call.
  destruct (checkStatus res); reflexivity.
Qed.

Lemma checkStatus_json (res : Response) (ct : string) :
  200 <= status res <= 299 ->
  Headers_get "content-type" (headers res) = Some ct ->
  startsWith ct "application/json" = true ->
  checkStatus res = Normal res.
Proof.
  intros Hr Hct Hjson. apply ok_range in Hr.
  unfold checkStatus. rewrite Hr, Hct. cbn [optional_startsWith].
  now rewrite Hjson.
Qed.

Lemma checkStatus_status (res : Response) (n : Z) :
  status res = n -> ~ 200 <= n <= 299 ->
  checkStatus res =
    Throw {| message := "response " ++ statusText res;
             code := JNumber n;
             retryAfter :=
               if n =? 429
               then of_nullable (Headers_get "Retry-After" (headers res))
               else JUndefined |}.
Proof.
  intros Hs Hr. subst n.
  assert (Hok : ok res = false).
  { destruct (ok res) eqn:E; [|reflexivity]. apply ok_range in E. tauto. }
  unfold checkStatus. rewrite Hok.
  destruct (status res =? 429); reflexivity.
Qed.

(** X4.  With the flag clear, a PUT answered by a response with a status in
    200..299, a JSON content type and a body that parses to [v] is the only
    call of [fetch]; the promise fulfils with [v]; nothing is written and
    the instance is left as it was. *)
Theorem upsert_update_succeeds
        (e : Entity) (id : JsVal) (locale : string) (body0 : Json)
        (m : Machine) (res : Response) (ct : string) (v : Json) :
  let put := request (this m) e "put" id locale body0 in
  rateLimited (this m) = false ->
  net (sent (world m)) put = Fulfilled res ->
  200 <= status res <= 299 ->
  Headers_get "content-type" (headers res) = Some ct ->
  startsWith ct "application/json" = true ->
  json res = Fulfilled v ->
  update e id locale body0 m = (Promise (Fulfilled v), after_fetch m [put]).
Proof.
  intros put Hlim Hnet Hr Hct Hjson Hv.
  apply upsert_run_put_ok; [exact Hlim|].
  fold put. rewrite Hnet, settle_response.
  now rewrite (checkStatus_json res ct Hr Hct Hjson).
Qed.

(** X5.  With the flag clear, a PUT answered 404 and a POST answered by a
    response with a status in 200..299, a JSON content type and a body that
    parses to [v]: the promise fulfils with [v], these two are the calls of
    [fetch], nothing is written and the instance is left as it was. *)
Theorem upsert_creates_when_missing
        (e : Entity) (id : JsVal) (locale : string) (body0 : Json)
        (m : Machine) (res1 res2 : Response) (ct : string) (v : Json) :
  let put := request (this m) e "put" id locale body0 in
  let post := request (this m) e "post" id locale body0 in
  rateLimited (this m) = false ->
  net (sent (world m)) put = Fulfilled res1 ->
  status res1 = 404 ->
  net (sent (world m) ++ [put]) post = Fulfilled res2 ->
  200 <= status res2 <= 299 ->
  Headers_get "content-type" (headers res2) = Some ct ->
  startsWith ct "application/json" = true ->
  json res2 = Fulfilled v ->
  update e id locale body0 m =
    (Promise (Fulfilled v), after_fetch m [put; post]).
Proof.
  intros put post Hlim Hnet1 H404 Hnet2 Hr Hct Hjson Hv.
  assert (Hput : chain (net (sent (world m)) put) =
                 Rejected {| message := "response " ++ statusText res1;
                             code := JNumber 404;
                             retryAfter := JUndefined |}).
  { rewrite Hnet1, settle_response.
    rewrite (checkStatus_status res1 404 H404) by lia. reflexivity. }
  rewrite (upsert_run_put_404 Json JSON_stringify json net
             e id locale body0 m _ Hlim Hput eq_refl).
  fold put post. rewrite Hnet2, settle_response.
  now rewrite (checkStatus_json res2 ct Hr Hct Hjson), Hv.
Qed.

(** X6.  With the flag clear, a PUT answered by a response with a status in
    200..299 whose content type is absent or not JSON (a 204 without a
    body, say) makes the upsert fail although the server accepted the
    update: the promise rejects with [response not json: ..], no POST
    follows, the error line is written, and the flag stays clear. *)
Theorem upsert_rejects_non_json_success
        (e : Entity) (id : JsVal) (locale : string) (body0 : Json)
        (m : Machine) (res : Response) :
  let put := request (this m) e "put" id locale body0 in
  let err := new_Error ("response not json: " ++
               ToString (of_nullable
                           (Headers_get "content-type" (headers res)))) in
  rateLimited (this m) = false ->
  net (sent (world m)) put = Fulfilled res ->
  200 <= status res <= 299 ->
  optional_startsWith (Headers_get "content-type" (headers res))
                      "application/json" = false ->
  update e id locale body0 m =
    (Promise (Rejected err),
     after_write (after_fetch m [put])
       ("Error processing id " ++ ToString id ++ " for locale " ++ locale ++
        ": " ++ message err ++ LF)).
Proof.
  intros put err Hlim Hnet Hr Hct.
  assert (Hput : chain (net (sent (world m)) put) = Rejected err).
  { rewrite Hnet, settle_response. unfold checkStatus.
    apply ok_range in Hr. now rewrite Hr, Hct. }
  rewrite (upsert_run_put_failed Json JSON_stringify json net
             e id locale body0 m err Hlim Hput ltac:(discriminate)).
  reflexivity.
Qed.

(** X7.  With the flag clear, a PUT answered 429 makes the promise reject
    with the error of code 429 that carries the [Retry-After] header, sets
    the flag, and the next upsert on the instance, of whatever entity,
    returns [-1] with the PUT still the only call of [fetch]. *)
Theorem rate_limit_trips_and_blocks
        (e : Entity) (id : JsVal) (locale : string) (body0 : Json)
        (e2 : Entity) (id2 : JsVal) (locale2 : string) (body2 : Json)
        (m : Machine) (res : Response) :
  let put := request (this m) e "put" id locale body0 in
  rateLimited (this m) = false ->
  net (sent (world m)) put = Fulfilled res ->
  status res = 429 ->
  let (r1, m1) := update e id locale body0 m in
  let (r2, m2) := update e2 id2 locale2 body2 m1 in
  r1 = Promise (Rejected
         {| message := "response " ++ statusText res;
            code := JNumber 429;
            retryAfter :=
              of_nullable (Headers_get "Retry-After" (headers res)) |})
  /\ rateLimited (this m1) = true
  /\ r2 = MinusOne
  /\ sent (world m2) = (sent (world m) ++ [put])%list
  /\ sent (world m2) = sent (world m1).
Proof.
  intros put Hlim Hnet H429.
  assert (Hput : chain (net (sent (world m)) put) =
                 Rejected {| message := "response " ++ statusText res;
                             code := JNumber 429;
                             retryAfter := of_nullable
                               (Headers_get "Retry-After" (headers res)) |}).
  { rewrite Hnet, settle_response.
    rewrite (checkStatus_status res 429 H429) by lia. reflexivity. }
  rewrite (upsert_run_put_failed Json JSON_stringify json net
             e id locale body0 m _ Hlim Hput ltac:(discriminate)).
  cbn [code strict_eq_num Z.eqb Pos.eqb tripped_if]. cbv beta iota.
  match goal with
  | |- context [updateTranslation _ _ _ _ e2 id2 locale2 body2 ?m1] =>
      rewrite (upsert_run_limited Json JSON_stringify json net
                 e2 id2 locale2 body2 m1 eq_refl)
  end.
  repeat split.
Qed.

(** X8.  An upsert returns [-1] exactly when the flag was set at the call:
    with the flag clear it returns a promise, however the network
    behaves. *)
Theorem upsert_minus_one_iff
        (e : Entity) (id : JsVal) (locale : string) (body0 : Json)
        (m : Machine) :
  fst (update e id locale body0 m) = MinusOne <-> rateLimited (this m) = true.
Proof.
  split.
  - intros H. destruct (rateLimited (this m)) eqn:Hlim; [reflexivity|].
    destruct (chain (net (sent (world m))
                (request (this m) e "put" id locale body0))) as [v|err] eqn:Hput.
    + rewrite (upsert_run_put_ok Json JSON_stringify json net
                 e id locale body0 m v Hlim Hput) in H. discriminate.
    + destruct (strict_eq_num (code err) 404) eqn:Hc.
      * apply strict_eq_num_true in Hc.
        rewrite (upsert_run_put_404 Json JSON_stringify json net
                   e id locale body0 m err Hlim Hput Hc) in H. discriminate.
      * apply strict_eq_num_false in Hc.
        rewrite (upsert_run_put_failed Json JSON_stringify json net
                   e id locale body0 m err Hlim Hput Hc) in H. discriminate.
  - intros Hlim.
    now rewrite (upsert_run_limited Json JSON_stringify json net
                   e id locale body0 m Hlim).
Qed.

(** X9.  An upsert sets the flag for one reason only: when the flag is
    clear before the call and set after it, the chain hung on the PUT
    rejected with an error of code 429. *)
Theorem flag_set_only_by_429
        (e : Entity) (id : JsVal) (locale : string) (body0 : Json)
        (m : Machine) :
  rateLimited (this m) = false ->
  rateLimited (this (snd (update e id locale body0 m))) = true ->
  exists err,
    chain (net (sent (world m)) (request (this m) e "put" id locale body0))
      = Rejected err
    /\ code err = JNumber 429
    /\ fst (update e id locale body0 m) = Promise (Rejected err).
Proof.
  intros Hlim Hset.
  destruct (chain (net (sent (world m))
              (request (this m) e "put" id locale body0))) as [v|err] eqn:Hput.
  - rewrite (upsert_run_put_ok Json JSON_stringify json net
               e id locale body0 m v Hlim Hput) in Hset.
    cbn in Hset. congruence.
  - destruct (strict_eq_num (code err) 404) eqn:Hc.
    + apply strict_eq_num_true in Hc.
      rewrite (upsert_run_put_404 Json JSON_stringify json net
                 e id locale body0 m err Hlim Hput Hc) in Hset.
      cbn in Hset. congruence.
    + apply strict_eq_num_false in Hc.
      rewrite (upsert_run_put_failed Json JSON_stringify json net
                 e id locale body0 m err Hlim Hput Hc) in *.
      exists err. split; [reflexivity|]. split; [|reflexivity].
      destruct (strict_eq_num (code err) 429) eqn:H429.
      * now apply strict_eq_num_true.
      * cbn in Hset. congruence.
Qed.

End RunFacts.

(** ** Sequences of calls *)

Lemma prefix_append (b x : string) : String.prefix b (b ++ x) = true.
Proof.
  induction b as [|c b IH]; cbn; [now destruct x|].
  destruct (ascii_dec c c) as [_|Hne]; [exact IH | now elim Hne].
Qed.

Lemma same_config_refl (a : FreshdeskApi) : same_config a a.
Proof. repeat split. Qed.

Lemma same_config_trans (a b c : FreshdeskApi) :
  same_config a b -> same_config b c -> same_config a c.
Proof.
  intros (H1 & H2 & H3) (K1 & K2 & K3).
  repeat split; congruence.
Qed.

Lemma request_from_config (a b : FreshdeskApi) (r : Request) :
  same_config a b -> request_from a r -> request_from b r.
Proof.
  intros (H1 & H2 & H3) (K1 & K2 & K3).
  repeat split; congruence.
Qed.

Section SequenceFacts.

Variable Json : Type.
Variable JSON_stringify : Json -> string.
Variable json : Response -> Settled Json.
Variable net : list Request -> Request -> Settled Response.

Local Abbreviation update := (updateTranslation Json JSON_stringify json net).
Local Abbreviation request := (translation_request Json JSON_stringify).
Local Abbreviation run1 := (run_call Json JSON_stringify json net).
Local Abbreviation run := (run_calls Json JSON_stringify json net).

Lemma request_from_put api e id locale body0 :
  request_from api (request api e "put" id locale body0).
Proof.
  repeat split.
  - apply prefix_append.
  - right. left. reflexivity.
Qed.

Lemma request_from_post api e id locale body0 :
  request_from api (request api e "post" id locale body0).
Proof.
  repeat split.
  - apply prefix_append.
  - right. right. left. reflexivity.
Qed.

Lemma request_from_list api path : request_from api (list_request api path).
Proof.
  repeat split.
  - apply prefix_append.
  - left. reflexivity.
Qed.

Lemma effect_nothing (m : Machine) : Effect m m 0 0.
Proof.
  apply (mkEffect m m 0 0 [] []); try (now rewrite app_nil_r);
    auto using same_config_refl.
Qed.

Lemma effect_weaken m m' a b a' b' :
  (a <= a')%nat -> (b <= b')%nat -> Effect m m' a b -> Effect m m' a' b'.
Proof.
  intros Ha Hb [new out H1 H2 H3 H4 H5 H6].
  apply (mkEffect m m' a' b' new out); auto; lia.
Qed.

Lemma effect_compose m1 m2 m3 a b a' b' :
  Effect m1 m2 a b -> Effect m2 m3 a' b' -> Effect m1 m3 (a + a') (b + b').
Proof.
  intros [n1 o1 S1 O1 C1 L1 W1 F1] [n2 o2 S2 O2 C2 L2 W2 F2].
  apply (mkEffect m1 m3 _ _ (n1 ++ n2)%list (o1 ++ o2)%list).
  - rewrite S2, S1. now rewrite app_assoc.
  - rewrite O2, O1. now rewrite app_assoc.
  - eapply same_config_trans; eassumption.
  - rewrite length_app. lia.
  - rewrite length_app. lia.
  - apply Forall_app. split; [exact F1|].
    eapply Forall_impl; [|exact F2].
    intros r. apply request_from_config. exact C1.
Qed.

Lemma upsert_effect e id locale body0 m :
  Effect m (snd (update e id locale body0 m)) 2 1.
Proof.
  destruct (rateLimited (this m)) eqn:Hlim.
  - rewrite (upsert_run_limited Json JSON_stringify json net
               e id locale body0 m Hlim).
    apply (mkEffect _ _ 2 1 [] [skipped_line id locale]); cbn;
      auto using same_config_refl; now rewrite ?app_nil_r.
  - destruct (settle Json json (net (sent (world m))
                (request (this m) e "put" id locale body0)))
      as [v|err] eqn:Hput.
    + rewrite (upsert_run_put_ok Json JSON_stringify json net
                 e id locale body0 m v Hlim Hput).
      apply (mkEffect _ _ 2 1
               [request (this m) e "put" id locale body0] []); cbn;
        auto using same_config_refl; try now rewrite ?app_nil_r.
      repeat constructor; apply request_from_put.
    + destruct (strict_eq_num (code err) 404) eqn:Hc.
      * apply strict_eq_num_true in Hc.
        rewrite (upsert_run_put_404 Json JSON_stringify json net
                   e id locale body0 m err Hlim Hput Hc).
        apply (mkEffect _ _ 2 1
                 [request (this m) e "put" id locale body0;
                  request (this m) e "post" id locale body0] []); cbn;
          auto using same_config_refl; try now rewrite ?app_nil_r.
        repeat constructor;
          [apply request_from_put | apply request_from_post].
      * apply strict_eq_num_false in Hc.
        rewrite (upsert_run_put_failed Json JSON_stringify json net
                   e id locale body0 m err Hlim Hput Hc).
        apply (mkEffect _ _ 2 1
                 [request (this m) e "put" id locale body0]
                 [error_line id locale err]);
          destruct (strict_eq_num (code err) 429); cbn;
          auto using same_config_refl.
        all: repeat constructor; apply request_from_put.
Qed.

Lemma run_call_effect (c : Call Json) (m : Machine) :
  Effect m (snd (run1 c m)) 2 1.
Proof.
  destruct c as [res| |cid|fid|e id locale body0]; cbn [run_call].
  - apply (effect_weaken m m 0 0); [lia | lia | apply effect_nothing].
  - unfold bind. rewrite listCategories_run.
    apply (mkEffect _ _ 2 1
             [list_request (this m) "/api/v2/solutions/categories"] []); cbn;
      auto using same_config_refl; try now rewrite ?app_nil_r.
    repeat constructor. apply request_from_list.
  - unfold bind. rewrite listFolders_run.
    apply (mkEffect _ _ 2 1
             [list_request (this m)
                ("/api/v2/solutions/categories/" ++ ToString cid ++
                 "/folders")] []); cbn;
      auto using same_config_refl; try now rewrite ?app_nil_r.
    repeat constructor. apply request_from_list.
  - unfold bind. rewrite listArticles_run.
    apply (mkEffect _ _ 2 1
             [list_request (this m)
                ("/api/v2/solutions/folders/" ++ ToString fid ++
                 "/articles")] []); cbn;
      auto using same_config_refl; try now rewrite ?app_nil_r.
    repeat constructor. apply request_from_list.
  - unfold bind.
    pose proof (upsert_effect e id locale body0 m) as H.
    destruct (update e id locale body0 m) as [r m']. exact H.
Qed.

Lemma run_calls_effect (cs : list (Call Json)) (m : Machine) :
  Effect m (snd (run cs m)) (2 * List.length cs) (List.length cs).
Proof.
  revert m. induction cs as [|c cs IH]; intros m.
  - apply effect_nothing.
  - cbn [run_calls]. unfold bind.
    pose proof (run_call_effect c m) as Hc.
    destruct (run1 c m) as [u m1]. cbn [snd] in Hc.
    apply (effect_weaken m _ (2 + 2 * List.length cs) (1 + List.length cs));
      [cbn [List.length]; lia | cbn [List.length]; lia |].
    eapply effect_compose; [exact Hc | apply IH].
Qed.

(** X10.  No sequence of calls, under any network, changes the base URL,
    the authorization or the default headers of the instance. *)
Theorem configuration_is_immutable (cs : list (Call Json)) (m : Machine) :
  let m' := snd (run cs m) in
  baseUrl (this m') = baseUrl (this m)
  /\ _auth (this m') = _auth (this m)
  /\ defaultHeaders (this m') = defaultHeaders (this m).
Proof.
  destruct (run_calls_effect cs m) as [new out _ _ Hc _ _ _]. exact Hc.
Qed.

(** X11.  Every request that an instance made by the constructor sends, in
    any sequence of calls and under any network, goes to a URL that starts
    with the base URL, uses GET, PUT or POST, and carries
    [Authorization: Basic base64(apiKey:X)] and
    [Content-Type: application/json]; and the requests sent before stay
    where they were. *)
Theorem requests_carry_credentials
        (baseUrl0 apiKey : string) (w : World) (cs : list (Call Json)) :
  let m := {| this := fst (constructor baseUrl0 apiKey w);
              world := snd (constructor baseUrl0 apiKey w) |} in
  exists new : list Request,
    sent (world (snd (run cs m))) = (sent w ++ new)%list
    /\ Forall (fun r =>
                 String.prefix baseUrl0 (url r) = true
                 /\ In (wire_method r) ["GET"; "PUT"; "POST"]
                 /\ Headers_get "Authorization" (init_headers r)
                    = Some ("Basic " ++ Base64.encode (apiKey ++ ":X"))
                 /\ Headers_get "Content-Type" (init_headers r)
                    = Some "application/json") new.
Proof.
  intros m.
  destruct (run_calls_effect cs m) as [new out Hs _ _ _ _ Hf].
  exists new. split; [exact Hs|].
  eapply Forall_impl; [|exact Hf].
  intros r (Hh & Hp & Hm). cbn [m this constructor fst] in Hh, Hp.
  cbn [defaultHeaders] in Hh. cbn [baseUrl] in Hp.
  rewrite Hh. repeat split; assumption.
Qed.

(** X12.  A sequence of [n] calls makes at most [2 * n] calls of [fetch]
    and writes at most [n] chunks to standard output, each added after what
    was there before. *)
Theorem effects_are_bounded (cs : list (Call Json)) (m : Machine) :
  let m' := snd (run cs m) in
  exists (new : list Request) (out : list string),
    sent (world m') = (sent (world m) ++ new)%list
    /\ stdout (world m') = (stdout (world m) ++ out)%list
    /\ (List.length new <= 2 * List.length cs)%nat
    /\ (List.length out <= List.length cs)%nat.
Proof.
  destruct (run_calls_effect cs m) as [new out Hs Ho _ Hn Hw _].
  exists new, out. auto.
Qed.

(** X13.  On an instance whose flag is set, a sequence of upserts calls
    [fetch] not at all, leaves the instance as it is, and writes exactly
    one chunk per call. *)
Theorem tripped_upserts_are_silent (cs : list (Call Json)) (m : Machine) :
  forallb is_upsert cs = true ->
  rateLimited (this m) = true ->
  let m' := snd (run cs m) in
  sent (world m') = sent (world m)
  /\ this m' = this m
  /\ List.length (stdout (world m'))
     = (List.length (stdout (world m)) + List.length cs)%nat.
Proof.
  revert m. induction cs as [|c cs IH]; intros m Hall Hlim.
  - cbn. repeat split. lia.
  - cbn [forallb] in Hall. apply andb_true_iff in Hall as [Hc Hall].
    destruct c as [res| |cid|fid|e id locale body0]; try discriminate.
    cbn [run_calls run_call]. unfold bind, ret.
    rewrite (upsert_run_limited Json JSON_stringify json net
               e id locale body0 m Hlim).
    destruct (IH (after_write m (skipped_line id locale)) Hall Hlim)
      as (Hs & Ht & Ho).
    cbv beta iota zeta in *. rewrite Hs, Ht, Ho. cbn [after_write this world sent stdout].
    repeat split. rewrite length_app. cbn [List.length]. lia.
Qed.

(** X14.  A sequence of list operations calls [fetch] exactly once per
    operation, writes nothing, and leaves the instance, its flag included,
    as it is, whatever the answers are. *)
Theorem lists_only_read (cs : list (Call Json)) (m : Machine) :
  forallb is_list cs = true ->
  let m' := snd (run cs m) in
  List.length (sent (world m'))
    = (List.length (sent (world m)) + List.length cs)%nat
  /\ stdout (world m') = stdout (world m)
  /\ this m' = this m.
Proof.
  revert m. induction cs as [|c cs IH]; intros m Hall.
  - cbn. repeat split. lia.
  - cbn [forallb] in Hall. apply andb_true_iff in Hall as [Hc Hall].
    cbn [run_calls]. unfold bind.
    assert (H1 : exists r, snd (run1 c m) = after_fetch m [r]).
    { destruct c as [res| |cid|fid|e id locale body0]; try discriminate;
        cbn [run_call]; unfold bind.
      - rewrite listCategories_run. eexists. reflexivity.
      - rewrite listFolders_run. eexists. reflexivity.
      - rewrite listArticles_run. eexists. reflexivity. }
    destruct H1 as [r Hr]. destruct (run1 c m) as [u m1]. cbn [snd] in Hr.
    subst m1. destruct (IH (after_fetch m [r]) Hall) as (Hs & Ho & Ht).
    cbv beta iota zeta in *. rewrite Hs, Ho, Ht.
    cbn [after_fetch this world sent stdout].
    repeat split. rewrite length_app. cbn [List.length]. lia.
Qed.

End SequenceFacts.

(** ** The further properties at work *)


(** A PUT answered 200 with [application/json; charset=utf-8]. *)
Lemma upsert_update_succeeds_witness :
  Toy.update [Toy.updated] Article (JNumber 42) "fr" "{title:Bonjour}" Toy.start
  = (Promise (Fulfilled "{id:42,locale:fr,title:Bonjour}"),
     after_fetch Toy.start
       [translation_request Toy.Json Toy.stringify (this Toy.start) Article
          "put" (JNumber 42) "fr" "{title:Bonjour}"]).
Proof.
  exact (upsert_update_succeeds Toy.Json Toy.stringify Toy.json
           (Toy.scripted [Toy.updated])
           Article (JNumber 42) "fr" "{title:Bonjour}" Toy.start
           (Toy.response_of Toy.updated) "application/json; charset=utf-8"
           "{id:42,locale:fr,title:Bonjour}"
           eq_refl eq_refl ltac:(cbn; lia) eq_refl eq_refl eq_refl).
Defined.

(** A PUT answered 404 and a POST answered 201. *)
Lemma upsert_creates_when_missing_witness :
  Toy.update [Toy.not_found; Toy.created] Category
             (JString "17") "pt-br" "{name:Ajuda}" Toy.start
  = (Promise (Fulfilled "{id:42,locale:fr,title:Bonjour}"),
     after_fetch Toy.start
       [translation_request Toy.Json Toy.stringify (this Toy.start) Category
          "put" (JString "17") "pt-br" "{name:Ajuda}";
        translation_request Toy.Json Toy.stringify (this Toy.start) Category
          "post" (JString "17") "pt-br" "{name:Ajuda}"]).
Proof.
  exact (upsert_creates_when_missing Toy.Json Toy.stringify Toy.json
           (Toy.scripted [Toy.not_found; Toy.created])
           Category (JString "17") "pt-br" "{name:Ajuda}" Toy.start
           (Toy.response_of Toy.not_found) (Toy.response_of Toy.created)
           "application/json" "{id:42,locale:fr,title:Bonjour}"
           eq_refl eq_refl eq_refl eq_refl ltac:(cbn; lia)
           eq_refl eq_refl eq_refl).
Defined.

(** A PUT answered 204 without a content type. *)
Lemma upsert_rejects_non_json_success_witness :
  Toy.update [Toy.no_content] Folder (JNumber 7) "en" "{}" Toy.start
  = (Promise (Rejected (new_Error "response not json: null")),
     after_write
       (after_fetch Toy.start
          [translation_request Toy.Json Toy.stringify (this Toy.start) Folder
             "put" (JNumber 7) "en" "{}"])
       ("Error processing id 7 for locale en: response not json: null" ++ LF)).
Proof.
  exact (upsert_rejects_non_json_success Toy.Json Toy.stringify Toy.json
           (Toy.scripted [Toy.no_content])
           Folder (JNumber 7) "en" "{}" Toy.start
           (Toy.response_of Toy.no_content)
           eq_refl eq_refl ltac:(cbn; lia) eq_refl).
Defined.

(** A folder upsert answered 429, then a category upsert. *)
Lemma rate_limit_trips_and_blocks_witness :
  let (r1, m1) := Toy.update [Toy.too_many; Toy.created] Folder
                             (JNumber 7) "en" "{}" Toy.start in
  let (r2, m2) := Toy.update [Toy.too_many; Toy.created] Category
                             (JNumber 1) "en" "{}" m1 in
  r1 = Promise (Rejected Toy.err_too_many)
  /\ r2 = MinusOne
  /\ List.length (sent (world m2)) = 1%nat.
Proof.
  pose proof (rate_limit_trips_and_blocks Toy.Json Toy.stringify Toy.json
                (Toy.scripted [Toy.too_many; Toy.created])
                Folder (JNumber 7) "en" "{}" Category (JNumber 1) "en" "{}"
                Toy.start (Toy.response_of Toy.too_many)
                eq_refl eq_refl eq_refl) as H.
  unfold Toy.update.
  destruct (updateTranslation Toy.Json Toy.stringify Toy.json
              (Toy.scripted [Toy.too_many; Toy.created]) Folder
              (JNumber 7) "en" "{}" Toy.start) as [r1 m1].
  destruct (updateTranslation Toy.Json Toy.stringify Toy.json
              (Toy.scripted [Toy.too_many; Toy.created]) Category
              (JNumber 1) "en" "{}" m1) as [r2 m2].
  destruct H as (H1 & _ & H2 & H3 & _).
  split; [exact H1|]. split; [exact H2|]. rewrite H3. reflexivity.
Defined.

(** The flag went up: the PUT was answered 429. *)
Lemma flag_set_only_by_429_witness :
  exists err,
    settle Toy.Json Toy.json
      (Toy.scripted [Toy.too_many] (sent (world Toy.start))
         (translation_request Toy.Json Toy.stringify (this Toy.start) Folder
            "put" (JNumber 7) "en" "{}"))
      = Rejected err
    /\ code err = JNumber 429
    /\ fst (Toy.update [Toy.too_many] Folder (JNumber 7) "en" "{}" Toy.start)
       = Promise (Rejected err).
Proof.
  exact (flag_set_only_by_429 Toy.Json Toy.stringify Toy.json
           (Toy.scripted [Toy.too_many])
           Folder (JNumber 7) "en" "{}" Toy.start eq_refl eq_refl).
Defined.

(** Three upserts on an instance whose flag is set. *)
Lemma tripped_upserts_are_silent_witness :
  let m' := snd (run_calls Toy.Json Toy.stringify Toy.json
                   (Toy.scripted [Toy.created; Toy.created; Toy.created])
                   [UpdateTranslation Toy.Json Category (JNumber 1) "en" "{}";
                    UpdateTranslation Toy.Json Folder (JNumber 2) "fr" "{}";
                    UpdateTranslation Toy.Json Article (JNumber 3) "de" "{}"]
                   Toy.tripped) in
  sent (world m') = []
  /\ this m' = this Toy.tripped
  /\ List.length (stdout (world m')) = 3%nat.
Proof.
  exact (tripped_upserts_are_silent Toy.Json Toy.stringify Toy.json
           (Toy.scripted [Toy.created; Toy.created; Toy.created])
           [UpdateTranslation Toy.Json Category (JNumber 1) "en" "{}";
            UpdateTranslation Toy.Json Folder (JNumber 2) "fr" "{}";
            UpdateTranslation Toy.Json Article (JNumber 3) "de" "{}"]
           Toy.tripped eq_refl eq_refl).
Defined.

(** The three lists, the second answered 429, on an instance whose flag is
    clear. *)
Lemma lists_only_read_witness :
  let m' := snd (run_calls Toy.Json Toy.stringify Toy.json
                   (Toy.scripted [Toy.updated; Toy.too_many; Toy.updated])
                   [ListCategories Toy.Json;
                    ListFolders Toy.Json (JNumber 5);
                    ListArticles Toy.Json (JNumber 9)]
                   Toy.start) in
  List.length (sent (world m')) = 3%nat
  /\ stdout (world m') = []
  /\ this m' = this Toy.start.
Proof.
  exact (lists_only_read Toy.Json Toy.stringify Toy.json
           (Toy.scripted [Toy.updated; Toy.too_many; Toy.updated])
           [ListCategories Toy.Json;
            ListFolders Toy.Json (JNumber 5);
            ListArticles Toy.Json (JNumber 9)]
           Toy.start eq_refl).
Defined.
